(** * A shallow embedding of [script/race_swap_vs_update.py]

    The script builds two transactions from one sender: a high-priority
    [swapXtoY] on the PropAMM contract and a low-priority
    [GlobalStorage.setBatch] parameter update.  It signs both, sends them
    through a two-worker thread pool, waits for both receipts through a second
    two-worker pool and classifies their order in the chain.

    The chain (web3 [w3.eth]), the signer ([Account]) and the environment
    variables are opaque collaborators: they are the fields of the record
    [World].  [main] runs in a small error-and-trace monad [M] which records
    every request the script makes to the chain, in program order, so that
    the number and order of those requests can be stated.  Console output is
    not modelled: [main] returns the values the script prints. *)

From Stdlib Require Import ZArith List String Bool Lia.
Import ListNotations.
Open Scope Z_scope.

(** ** Constants and helpers (lines 10-16, 68-69) *)

Definition PROP_AMM_ADDRESS : string := "0xDc64a140Aa3E981100a9becA4E685f962f0cF6C9".
Definition GLOBAL_STORAGE_ADDRESS : string := "0xe7f1725E7734CE288F8367e1Bb143E90bb3F0512".

(** [PAIR_ID] as the 32-byte word [bytes.fromhex(PAIR_ID[2:])]. *)
Definition PAIR_ID : Z :=
  0x667546a103822a3ea5b74bdf319f969f53de0a26339708852cfa21db6575a3be.

(** [def gwei(n): return int(n) * 10**9] *)
Definition gwei (n : Z) : Z := n * 10 ^ 9.

(** [Web3.to_wei(n, 'ether')] *)
Definition to_wei_ether (n : Z) : Z := n * 10 ^ 18.

(** ** Contract calls (the ABIs of lines 19-65) *)

Inductive call : Type :=
| swapXtoY (pairId amountXIn minAmountYOut : Z)
| getParameterKeys (pairId : Z)
| encodeParameters (concentration multX multY : Z)
| setBatch (keys values : list Z).

(** ** Fee configuration (lines 116-131)

    A fee dictionary merged into the transaction with [**fee]: either the
    EIP-1559 pair or the legacy [gasPrice]. *)

Inductive fee : Type :=
| FeeMarket (maxPriorityFeePerGas maxFeePerGas : Z)
| FeeLegacy (gasPrice : Z).

(** [base_fee] is [latest.get("baseFeePerGas")]; the result is
    [(fee_high, fee_low)]. *)
Definition fee_config (base_fee : option Z) : fee * fee :=
  match base_fee with
  | Some b =>
      (FeeMarket (gwei 10) (b * 2 + gwei 10),
       FeeMarket (gwei 1) (b * 2 + gwei 1))
  | None =>
      (FeeLegacy (gwei 100), FeeLegacy (gwei 20))
  end.

Definition priority_fee (f : fee) : option Z :=
  match f with FeeMarket p _ => Some p | FeeLegacy _ => None end.

Definition max_fee (f : fee) : option Z :=
  match f with FeeMarket _ m => Some m | FeeLegacy _ => None end.

Definition gas_price (f : fee) : option Z :=
  match f with FeeMarket _ _ => None | FeeLegacy g => Some g end.

(** ** Transactions (lines 144-160)

    [contract.functions.f(...).build_transaction(params)]: every field the
    chain would otherwise fill in ([nonce], [chainId], [gas] and the fees)
    is given, so building is a pure assembly of the call and the
    parameters. *)

Record tx : Type := {
  tx_to : string;
  tx_data : call;
  tx_from : string;
  tx_nonce : Z;
  tx_chainId : Z;
  tx_gas : Z;
  tx_fee : fee
}.

Definition build_transaction (to : string) (c : call)
    (from : string) (nonce chainId gas : Z) (f : fee) : tx :=
  {| tx_to := to; tx_data := c; tx_from := from; tx_nonce := nonce;
     tx_chainId := chainId; tx_gas := gas; tx_fee := f |}.

(** ** Receipts and the ordering verdict (lines 212-226) *)

Record receipt : Type := {
  status : Z;
  blockNumber : Z;
  blockHash : string;
  transactionIndex : Z;
  gasUsed : Z;
  effectiveGasPrice : Z
}.

(** The three branches of the final report.  Transaction A is the update,
    transaction B the swap. *)
Inductive verdict : Type :=
| SameBlockAFirst   (* "Update (ToB priority) executed BEFORE swap" *)
| SameBlockBFirst   (* "Swap (high fee) executed BEFORE update" *)
| DifferentBlocks (swap_block update_block : Z).

Definition ordering_verdict (rcpt_update rcpt_swap : receipt) : verdict :=
  if blockNumber rcpt_swap =? blockNumber rcpt_update then
    let tx_idx_swap := transactionIndex rcpt_swap in
    let tx_idx_update := transactionIndex rcpt_update in
    if tx_idx_swap <? tx_idx_update then SameBlockBFirst else SameBlockAFirst
  else DifferentBlocks (blockNumber rcpt_swap) (blockNumber rcpt_update).

(** ** The collaborators

    [World] gathers what the script reads from outside: the
    [PRIVATE_KEY] environment variable, the signer and the chain.  The
    fallible chain requests return [option]: [None] is the exception the
    web3 call raises (a reverting gas estimate, a rejected raw transaction,
    a receipt wait that times out). *)

Record signed : Type := { raw_transaction : string }.

Record World : Type := {
  PRIVATE_KEY : option string;
  (* [Account.from_key(key).address]; [None] for an invalid key *)
  from_key : string -> option string;
  (* [Account.sign_transaction(tx, key)] *)
  sign_transaction : tx -> string -> signed;
  (* [w3.eth.chain_id] *)
  w_chain_id : Z;
  (* [w3.eth.get_block("latest").get("baseFeePerGas")] *)
  w_base_fee : option Z;
  (* [w3.eth.get_transaction_count(addr, "pending")] *)
  w_pending_count : string -> Z;
  (* [contract.functions.f(...).call()] for the two read-only helpers *)
  w_view : string -> call -> list Z;
  (* [contract.functions.f(...).estimate_gas({"from": sender})] *)
  w_estimate_gas : string -> call -> string -> option Z;
  (* [w3.eth.send_raw_transaction(raw).hex()] *)
  w_send_raw : string -> option string;
  (* [w3.eth.wait_for_transaction_receipt(hash)] *)
  w_wait_receipt : string -> option receipt
}.

(** A job handed to a [ThreadPoolExecutor]. *)
Inductive job : Type :=
| SendRaw (raw : string)
| WaitReceipt (txhash : string).

(** The requests of the script, in the order the main thread makes them.
    [EvPoolSubmit p j] is [pool.submit(...)] on the [p]-th pool,
    [EvFutureResult p j] the main thread blocking in [fut.result()]. *)
Inductive event : Type :=
| EvChainId
| EvView (to : string) (c : call)
| EvGetBlock (tag : string)
| EvGetTransactionCount (addr tag : string)
| EvEstimateGas (to : string) (c : call) (from : string)
| EvPoolSubmit (pool : nat) (j : job)
| EvFutureResult (pool : nat) (j : job).

(** ** The error-and-trace monad *)

Definition M (A : Type) : Type := list event -> option A * list event.

Definition ret {A} (a : A) : M A := fun tr => (Some a, tr).

Definition bind {A B} (m : M A) (k : A -> M B) : M B :=
  fun tr => match m tr with
            | (Some a, tr') => k a tr'
            | (None, tr') => (None, tr')
            end.

Notation "x <- m ;; k" := (bind m (fun x => k))
  (at level 61, m at next level, right associativity).

Definition emit (e : event) : M unit := fun tr => (Some tt, tr ++ [e]).

(** Raise, or continue with the value. *)
Definition lift {A} (o : option A) : M A := fun tr => (o, tr).

(** The chain requests. *)
Definition eth_chain_id (w : World) : M Z :=
  _ <- emit EvChainId ;; ret (w_chain_id w).

Definition view_call (w : World) (to : string) (c : call) : M (list Z) :=
  _ <- emit (EvView to c) ;; ret (w_view w to c).

Definition get_block_base_fee (w : World) : M (option Z) :=
  _ <- emit (EvGetBlock "latest") ;; ret (w_base_fee w).

Definition get_transaction_count (w : World) (addr tag : string) : M Z :=
  _ <- emit (EvGetTransactionCount addr tag) ;; ret (w_pending_count w addr).

Definition estimate_gas (w : World) (to : string) (c : call) (from : string)
    : M Z :=
  _ <- emit (EvEstimateGas to c from) ;; lift (w_estimate_gas w to c from).

Definition pool_submit (p : nat) (j : job) : M unit := emit (EvPoolSubmit p j).

(** [fut.result()]: an exception raised by the job is re-raised here. *)
Definition result_send (w : World) (p : nat) (raw : string) : M string :=
  _ <- emit (EvFutureResult p (SendRaw raw)) ;; lift (w_send_raw w raw).

Definition result_wait (w : World) (p : nat) (h : string) : M receipt :=
  _ <- emit (EvFutureResult p (WaitReceipt h)) ;; lift (w_wait_receipt w h).

(** ** [main] (lines 72-227) *)

Record race_result : Type := {
  r_tx_update : tx;
  r_tx_swap : tx;
  r_txhash_update : string;
  r_txhash_swap : string;
  r_rcpt_update : receipt;
  r_rcpt_swap : receipt;
  r_verdict : verdict
}.

(** The two pools of lines 171 and 183. *)
Definition SEND_POOL : nat := 1.
Definition WAIT_POOL : nat := 2.

Definition main (w : World) : M race_result :=
  key <- lift (PRIVATE_KEY w) ;;
  sender <- lift (from_key w key) ;;
  chain_id <- eth_chain_id w ;;
  let swap_amount_weth := to_wei_ether 1 in
  let swap_func := swapXtoY PAIR_ID swap_amount_weth 0 in
  let new_concentration := 150 in
  let new_mult_x := 10 ^ 18 in
  let new_mult_y := 3000 * 10 ^ 18 in
  let pair_id_bytes := PAIR_ID in
  keys <- view_call w PROP_AMM_ADDRESS (getParameterKeys pair_id_bytes) ;;
  values <- view_call w PROP_AMM_ADDRESS
              (encodeParameters new_concentration new_mult_x new_mult_y) ;;
  let update_func := setBatch keys values in
  base_fee <- get_block_base_fee w ;;
  let '(fee_high, fee_low) := fee_config base_fee in
  base_nonce <- get_transaction_count w sender "pending" ;;
  gas_swap <- estimate_gas w PROP_AMM_ADDRESS swap_func sender ;;
  gas_update <- estimate_gas w GLOBAL_STORAGE_ADDRESS update_func sender ;;
  let tx_update := build_transaction GLOBAL_STORAGE_ADDRESS update_func
                     sender base_nonce chain_id (gas_update + 20000) fee_low in
  let tx_swap := build_transaction PROP_AMM_ADDRESS swap_func
                   sender (base_nonce + 1) chain_id (gas_swap + 20000) fee_high in
  let signed_swap := sign_transaction w tx_swap key in
  let signed_update := sign_transaction w tx_update key in
  _ <- pool_submit SEND_POOL (SendRaw (raw_transaction signed_update)) ;;
  _ <- pool_submit SEND_POOL (SendRaw (raw_transaction signed_swap)) ;;
  txhash_update <- result_send w SEND_POOL (raw_transaction signed_update) ;;
  txhash_swap <- result_send w SEND_POOL (raw_transaction signed_swap) ;;
  _ <- pool_submit WAIT_POOL (WaitReceipt txhash_update) ;;
  _ <- pool_submit WAIT_POOL (WaitReceipt txhash_swap) ;;
  rcpt_update <- result_wait w WAIT_POOL txhash_update ;;
  rcpt_swap <- result_wait w WAIT_POOL txhash_swap ;;
  ret {| r_tx_update := tx_update; r_tx_swap := tx_swap;
         r_txhash_update := txhash_update; r_txhash_swap := txhash_swap;
         r_rcpt_update := rcpt_update; r_rcpt_swap := rcpt_swap;
         r_verdict := ordering_verdict rcpt_update rcpt_swap |}.

Definition run_main (w : World) : option race_result * list event := main w [].

(** ** A concrete world

    A chain where the base fee is 1 gwei, the sender has 42 pending
    transactions and both transactions land in block 757, the swap at index
    0 and the update at index 1. *)

Definition demo_receipt (idx : Z) : receipt :=
  {| status := 1; blockNumber := 757; blockHash := "0x757";
     transactionIndex := idx; gasUsed := 50000;
     effectiveGasPrice := 12000000000 |}.

Definition demo_world : World :=
  {| PRIVATE_KEY := Some "0xkey"%string;
     from_key := fun _ => Some "0xsender"%string;
     sign_transaction := fun t _ =>
       {| raw_transaction :=
            if String.eqb (tx_to t) GLOBAL_STORAGE_ADDRESS
            then "raw_update" else "raw_swap" |};
     w_chain_id := 412346;
     w_base_fee := Some 1000000000;
     w_pending_count := fun _ => 42;
     w_view := fun _ _ => [1; 2; 3];
     w_estimate_gas := fun _ _ _ => Some 100000;
     w_send_raw := fun raw =>
       Some (if String.eqb raw "raw_update" then "0xhu" else "0xhs")%string;
     w_wait_receipt := fun h =>
       Some (if String.eqb h "0xhu" then demo_receipt 1 else demo_receipt 0) |}.

(** The same chain without a base fee (a legacy chain). *)
Definition demo_world_legacy : World :=
  {| PRIVATE_KEY := PRIVATE_KEY demo_world;
     from_key := from_key demo_world;
     sign_transaction := sign_transaction demo_world;
     w_chain_id := w_chain_id demo_world;
     w_base_fee := None;
     w_pending_count := w_pending_count demo_world;
     w_view := w_view demo_world;
     w_estimate_gas := w_estimate_gas demo_world;
     w_send_raw := w_send_raw demo_world;
     w_wait_receipt := w_wait_receipt demo_world |}.

(** The same chain seen through a world that changes one collaborator. *)
Definition with_collaborators (w : World) (key : option string)
    (est : string -> call -> string -> option Z)
    (send : string -> option string) : World :=
  {| PRIVATE_KEY := key; from_key := from_key w;
     sign_transaction := sign_transaction w; w_chain_id := w_chain_id w;
     w_base_fee := w_base_fee w; w_pending_count := w_pending_count w;
     w_view := w_view w; w_estimate_gas := est; w_send_raw := send;
     w_wait_receipt := w_wait_receipt w |}.

(** [PRIVATE_KEY] unset. *)
Definition demo_world_nokey : World :=
  with_collaborators demo_world None (w_estimate_gas demo_world)
    (w_send_raw demo_world).

(** The update's gas estimate reverts. *)
Definition demo_world_revert : World :=
  with_collaborators demo_world (PRIVATE_KEY demo_world)
    (fun to c from =>
       if String.eqb to GLOBAL_STORAGE_ADDRESS then None
       else w_estimate_gas demo_world to c from)
    (w_send_raw demo_world).

(** The node rejects the update's raw transaction. *)
Definition demo_world_reject : World :=
  with_collaborators demo_world (PRIVATE_KEY demo_world)
    (w_estimate_gas demo_world)
    (fun raw => if String.eqb raw "raw_update" then None
                else w_send_raw demo_world raw).

(** ** The successful runs of [main]

    Every run that reaches the end makes the same requests in the same
    order, and its result is assembled from the answers. *)

Definition main_trace (sender : string) (upd swp : call) (raw_u raw_s hu hs : string)
    : list event :=
  [EvChainId;
   EvView PROP_AMM_ADDRESS (getParameterKeys PAIR_ID);
   EvView PROP_AMM_ADDRESS (encodeParameters 150 (10 ^ 18) (3000 * 10 ^ 18));
   EvGetBlock "latest";
   EvGetTransactionCount sender "pending";
   EvEstimateGas PROP_AMM_ADDRESS swp sender;
   EvEstimateGas GLOBAL_STORAGE_ADDRESS upd sender;
   EvPoolSubmit SEND_POOL (SendRaw raw_u);
   EvPoolSubmit SEND_POOL (SendRaw raw_s);
   EvFutureResult SEND_POOL (SendRaw raw_u);
   EvFutureResult SEND_POOL (SendRaw raw_s);
   EvPoolSubmit WAIT_POOL (WaitReceipt hu);
   EvPoolSubmit WAIT_POOL (WaitReceipt hs);
   EvFutureResult WAIT_POOL (WaitReceipt hu);
   EvFutureResult WAIT_POOL (WaitReceipt hs)].

(** [w3.eth.get_transaction_count] requests in a trace. *)
Definition is_count_query (e : event) : bool :=
  match e with EvGetTransactionCount _ _ => true | _ => false end.

Definition failed_receipt (r : receipt) : receipt :=
  {| status := 0; blockNumber := blockNumber r; blockHash := blockHash r;
     transactionIndex := transactionIndex r; gasUsed := gasUsed r;
     effectiveGasPrice := effectiveGasPrice r |}.

(** The [minAmountYOut] of every [swapXtoY] gas estimate in a trace. *)
Definition swap_min_outs (tr : list event) : list Z :=
  flat_map (fun e => match e with
                     | EvEstimateGas _ (swapXtoY _ _ m) _ => [m]
                     | _ => []
                     end) tr.

(** The main thread's pool requests in a trace of [main]. *)
Inductive fan_kind : Type := KSubmit | KResult.

Definition pool_kinds (p : nat) (tr : list event) : list fan_kind :=
  flat_map (fun e => match e with
                     | EvPoolSubmit q _ => if Nat.eqb q p then [KSubmit] else []
                     | EvFutureResult q _ => if Nat.eqb q p then [KResult] else []
                     | _ => []
                     end) tr.

Fixpoint is_prefix (l m : list fan_kind) : bool :=
  match l, m with
  | [], _ => true
  | KSubmit :: l', KSubmit :: m' | KResult :: l', KResult :: m' => is_prefix l' m'
  | _, _ => false
  end.

(** Both jobs are submitted before the first [fut.result()]. *)
Definition fanout_ok (p : nat) (tr : list event) : bool :=
  is_prefix (pool_kinds p tr) [KSubmit; KSubmit; KResult; KResult].

(** ** The two-worker fan-out (lines 171-175 and 183-187)

    Both [with ThreadPoolExecutor(max_workers=2) as pool:] blocks have the
    same shape: submit the update's job, submit the swap's job, block on
    the update's future, block on the swap's future.  The model interleaves
    the main thread with the pool's workers.  A submitted job waits in the
    pool's FIFO queue until a worker is free; a worker that takes it enters
    the call ([Running]); the call returns ([Done]) when the callable lets
    it, which [may_return] decides from the whole state. *)
Module Pool.

Inductive status : Type := NotSubmitted | Queued | Running | Done.

(** The main thread's position in the [with] block. *)
Inductive pc : Type := AtSubmitA | AtSubmitB | AtResultA | AtResultB | Exited.

Record state : Type := mk { pc_of : pc; st_a : status; st_b : status }.

Definition init : state := mk AtSubmitA NotSubmitted NotSubmitted.

Definition status_eqb (x y : status) : bool :=
  match x, y with
  | NotSubmitted, NotSubmitted | Queued, Queued
  | Running, Running | Done, Done => true
  | _, _ => false
  end.

Definition pc_eqb (x y : pc) : bool :=
  match x, y with
  | AtSubmitA, AtSubmitA | AtSubmitB, AtSubmitB | AtResultA, AtResultA
  | AtResultB, AtResultB | Exited, Exited => true
  | _, _ => false
  end.

Definition state_eqb (s t : state) : bool :=
  pc_eqb (pc_of s) (pc_of t) && status_eqb (st_a s) (st_a t)
  && status_eqb (st_b s) (st_b t).

Definition submitted (x : status) : bool := negb (status_eqb x NotSubmitted).

Definition entered (x : status) : bool :=
  status_eqb x Running || status_eqb x Done.

Definition running_count (s : state) : nat :=
  (if status_eqb (st_a s) Running then 1 else 0)
  + (if status_eqb (st_b s) Running then 1 else 0).

(** The main thread: [pool.submit] twice, then [fut.result()] twice;
    [fut.result()] returns once its job is [Done]. *)
Definition main_steps (s : state) : list state :=
  match pc_of s with
  | AtSubmitA => [mk AtSubmitB Queued (st_b s)]
  | AtSubmitB => [mk AtResultA (st_a s) Queued]
  | AtResultA =>
      if status_eqb (st_a s) Done then [mk AtResultB (st_a s) (st_b s)] else []
  | AtResultB =>
      if status_eqb (st_b s) Done then [mk Exited (st_a s) (st_b s)] else []
  | Exited => []
  end.

(** The workers: a free worker takes the oldest queued job; a running call
    returns when [may_return] allows it. *)
Definition worker_steps (max_workers : nat) (may_return : state -> bool)
    (s : state) : list state :=
  (if status_eqb (st_a s) Queued && Nat.ltb (running_count s) max_workers
   then [mk (pc_of s) Running (st_b s)] else [])
  ++ (if status_eqb (st_b s) Queued && negb (status_eqb (st_a s) Queued)
         && Nat.ltb (running_count s) max_workers
      then [mk (pc_of s) (st_a s) Running] else [])
  ++ (if status_eqb (st_a s) Running && may_return s
      then [mk (pc_of s) Done (st_b s)] else [])
  ++ (if status_eqb (st_b s) Running && may_return s
      then [mk (pc_of s) (st_a s) Done] else []).

Definition steps (max_workers : nat) (may_return : state -> bool)
    (s : state) : list state :=
  main_steps s ++ worker_steps max_workers may_return s.

Inductive reachable (max_workers : nat) (may_return : state -> bool)
    : state -> Prop :=
| reach_init : reachable max_workers may_return init
| reach_step s s' :
    reachable max_workers may_return s ->
    In s' (steps max_workers may_return s) ->
    reachable max_workers may_return s'.

(** The test double of the spec: a call blocks until both calls have been
    entered. *)
Definition blocking_double (s : state) : bool :=
  entered (st_a s) && entered (st_b s).

(** [max_workers=2] in both [with] blocks. *)
Definition MAX_WORKERS : nat := 2.

(** Breadth-first exploration of the reachable states. *)
Definition mem (s : state) (l : list state) : bool := existsb (state_eqb s) l.

Definition add_new (l : list state) (s : state) : list state :=
  if mem s l then l else l ++ [s].

Fixpoint explore (max_workers : nat) (may_return : state -> bool)
    (fuel : nat) (seen : list state) : list state :=
  match fuel with
  | O => seen
  | S fuel' =>
      explore max_workers may_return fuel'
        (fold_left add_new (flat_map (steps max_workers may_return) seen) seen)
  end.

Definition closed (max_workers : nat) (may_return : state -> bool)
    (l : list state) : bool :=
  forallb (fun s => forallb (fun s' => mem s' l) (steps max_workers may_return s)) l.

(** A run of the model from [s] through the states of [l]. *)
Fixpoint run_path (max_workers : nat) (may_return : state -> bool)
    (s : state) (l : list state) : bool :=
  match l with
  | [] => true
  | s' :: l' => mem s' (steps max_workers may_return s)
                && run_path max_workers may_return s' l'
  end.

Definition explored_blocking : list state :=
  explore MAX_WORKERS blocking_double 12 [init].

(** Once the main thread is past [pool.submit], the job is in the pool:
    whatever the number of workers and whatever the callables do. *)
Definition submitted_inv (s : state) : bool :=
  match pc_of s with
  | AtSubmitA => true
  | AtSubmitB => submitted (st_a s)
  | _ => submitted (st_a s) && submitted (st_b s)
  end.

End Pool.

(** ** The shape of a run's requests *)






(** A request handed to one of the two thread pools. *)
Definition is_pool_event (e : event) : bool :=
  match e with EvPoolSubmit _ _ | EvFutureResult _ _ => true | _ => false end.

(** A raw transaction submitted to the first pool. *)
Definition is_send_submit (e : event) : bool :=
  match e with EvPoolSubmit _ (SendRaw _) => true | _ => false end.

(** A receipt wait submitted to the second pool. *)
Definition is_wait_submit (e : event) : bool :=
  match e with EvPoolSubmit _ (WaitReceipt _) => true | _ => false end.

(** * Proofs about the model *)

(** Unfold [main] down to the answers of the world. *)
Ltac unfold_main :=
  cbv beta iota zeta delta [run_main main bind lift ret emit eth_chain_id
    view_call get_block_base_fee get_transaction_count estimate_gas
    pool_submit result_send result_wait app].

(** Split on every answer of the world that [main] inspects. *)
Ltac case_main :=
  repeat match goal with
         | |- context [match ?e with Some _ => _ | None => _ end] =>
             let E := fresh "E" in destruct e eqn:E
         | |- context [match fee_config ?b with (_, _) => _ end] =>
             let E := fresh "E" in destruct (fee_config b) eqn:E
         end.

Example demo_world_verdict :
  option_map r_verdict (fst (run_main demo_world)) = Some SameBlockBFirst.
Proof. vm_compute. reflexivity. Qed.

Example demo_world_legacy_fees :
  option_map (fun r => (tx_fee (r_tx_swap r), tx_fee (r_tx_update r)))
    (fst (run_main demo_world_legacy))
  = Some (FeeLegacy 100000000000, FeeLegacy 20000000000).
Proof. vm_compute. reflexivity. Qed.

Example demo_world_fees :
  option_map (fun r => (tx_fee (r_tx_swap r), tx_fee (r_tx_update r)))
    (fst (run_main demo_world))
  = Some (FeeMarket 10000000000 12000000000, FeeMarket 1000000000 3000000000).
Proof. vm_compute. reflexivity. Qed.

Lemma main_success (w : World) (r : race_result) (tr : list event) :
  run_main w = (Some r, tr) ->
  exists key sender gas_swap gas_update hu hs ru rs,
    let swp := swapXtoY PAIR_ID (to_wei_ether 1) 0 in
    let upd := setBatch (w_view w PROP_AMM_ADDRESS (getParameterKeys PAIR_ID))
                 (w_view w PROP_AMM_ADDRESS
                    (encodeParameters 150 (10 ^ 18) (3000 * 10 ^ 18))) in
    let n := w_pending_count w sender in
    let fees := fee_config (w_base_fee w) in
    let tu := build_transaction GLOBAL_STORAGE_ADDRESS upd sender n
                (w_chain_id w) (gas_update + 20000) (snd fees) in
    let ts := build_transaction PROP_AMM_ADDRESS swp sender (n + 1)
                (w_chain_id w) (gas_swap + 20000) (fst fees) in
    let raw_u := raw_transaction (sign_transaction w tu key) in
    let raw_s := raw_transaction (sign_transaction w ts key) in
    PRIVATE_KEY w = Some key /\ from_key w key = Some sender /\
    w_estimate_gas w PROP_AMM_ADDRESS swp sender = Some gas_swap /\
    w_estimate_gas w GLOBAL_STORAGE_ADDRESS upd sender = Some gas_update /\
    w_send_raw w raw_u = Some hu /\ w_send_raw w raw_s = Some hs /\
    w_wait_receipt w hu = Some ru /\ w_wait_receipt w hs = Some rs /\
    tr = main_trace sender upd swp raw_u raw_s hu hs /\
    r = {| r_tx_update := tu; r_tx_swap := ts;
           r_txhash_update := hu; r_txhash_swap := hs;
           r_rcpt_update := ru; r_rcpt_swap := rs;
           r_verdict := ordering_verdict ru rs |}.
Proof.
  cbv beta iota zeta delta [run_main main bind lift ret emit eth_chain_id
    view_call get_block_base_fee get_transaction_count estimate_gas
    pool_submit result_send result_wait app].
  destruct (PRIVATE_KEY w) as [key|] eqn:Hk; [|discriminate].
  destruct (from_key w key) as [sender|] eqn:Hs; [|discriminate].
  destruct (fee_config (w_base_fee w)) as [fee_high fee_low] eqn:Hf.
  destruct (w_estimate_gas w PROP_AMM_ADDRESS _ sender) as [gs|] eqn:Hgs;
    [|discriminate].
  destruct (w_estimate_gas w GLOBAL_STORAGE_ADDRESS _ sender) as [gu|] eqn:Hgu;
    [|discriminate].
  match goal with
  | |- context [match w_send_raw w ?raw with Some _ => _ | None => _ end] =>
      destruct (w_send_raw w raw) as [hu|] eqn:Hhu; [|discriminate]
  end.
  match goal with
  | |- context [match w_send_raw w ?raw with Some _ => _ | None => _ end] =>
      destruct (w_send_raw w raw) as [hs|] eqn:Hhs; [|discriminate]
  end.
  destruct (w_wait_receipt w hu) as [ru|] eqn:Hru; [|discriminate].
  destruct (w_wait_receipt w hs) as [rs|] eqn:Hrs; [|discriminate].
  intros H.
  pose proof (f_equal fst H) as Hr; pose proof (f_equal snd H) as Htr.
  clear H; cbv beta iota delta [fst snd] in Hr, Htr.
  apply (f_equal (fun o => match o with Some x => x | None => r end)) in Hr.
  cbv beta iota in Hr; subst r tr.
  exists key, sender, gs, gu, hu, hs, ru, rs; cbv zeta.
  cbv [fst snd].
  repeat split; assumption.
Qed.

Module PoolFacts.
Import Pool.

Lemma status_eqb_eq (x y : status) : status_eqb x y = true -> x = y.
Proof. destruct x, y; cbn; congruence. Qed.

Lemma pc_eqb_eq (x y : pc) : pc_eqb x y = true -> x = y.
Proof. destruct x, y; cbn; congruence. Qed.

Lemma state_eqb_eq (s t : state) : state_eqb s t = true -> s = t.
Proof.
  destruct s as [p a b], t as [p' a' b']; unfold state_eqb; cbn.
  intros H; apply andb_prop in H as [H Hb]; apply andb_prop in H as [Hp Ha].
  apply pc_eqb_eq in Hp; apply status_eqb_eq in Ha; apply status_eqb_eq in Hb.
  subst; reflexivity.
Qed.

Lemma mem_In (s : state) (l : list state) : mem s l = true -> In s l.
Proof.
  unfold mem; intros H; apply existsb_exists in H as (t & Ht & He).
  apply state_eqb_eq in He; subst; exact Ht.
Qed.

Lemma run_path_reachable (mw : nat) (mr : state -> bool) (l : list state)
    (s t : state) :
  reachable mw mr s -> run_path mw mr s l = true -> In t l -> reachable mw mr t.
Proof.
  revert s; induction l as [|s' l IH]; intros s Hs Hp Ht; [contradiction|].
  cbn [run_path] in Hp; apply andb_prop in Hp as [Hm Hp].
  assert (Hs' : reachable mw mr s')
    by (apply reach_step with s; [exact Hs | apply mem_In, Hm]).
  destruct Ht as [<- | Ht]; [exact Hs'|].
  exact (IH s' Hs' Hp Ht).
Qed.

(** A list that holds the initial state and is closed under the steps holds
    every reachable state. *)
Lemma closed_reachable (mw : nat) (mr : state -> bool) (l : list state) (s : state) :
  mem init l = true -> closed mw mr l = true -> reachable mw mr s -> In s l.
Proof.
  intros Hi Hc Hr; induction Hr as [|s s' _ IH Hs].
  - apply mem_In, Hi.
  - unfold closed in Hc; rewrite forallb_forall in Hc.
    specialize (Hc s IH); rewrite forallb_forall in Hc.
    apply mem_In, Hc, Hs.
Qed.

Lemma explored_blocking_closed :
  mem init explored_blocking = true /\
  closed MAX_WORKERS blocking_double explored_blocking = true.
Proof. split; vm_compute; reflexivity. Qed.

Lemma reachable_blocking_explored (s : state) :
  reachable MAX_WORKERS blocking_double s -> In s explored_blocking.
Proof.
  apply closed_reachable; apply explored_blocking_closed.
Qed.

Lemma submitted_inv_step (mw : nat) (mr : state -> bool) (s s' : state) :
  submitted_inv s = true -> In s' (steps mw mr s) -> submitted_inv s' = true.
Proof.
  destruct s as [p a b]; unfold steps, main_steps, worker_steps; cbn.
  intros Hinv Hin.
  destruct p, a, b; cbn in Hinv, Hin; try discriminate;
    repeat match goal with
           | H : context [if ?c then _ else _] |- _ => destruct c
           end;
    cbn in Hin; repeat destruct Hin as [<- | Hin]; try contradiction;
    reflexivity.
Qed.

Lemma submitted_inv_reachable (mw : nat) (mr : state -> bool) (s : state) :
  reachable mw mr s -> submitted_inv s = true.
Proof.
  induction 1 as [|s s' _ IH Hs]; [reflexivity|].
  eapply submitted_inv_step; eassumption.
Qed.

End PoolFacts.

Lemma main_fanout_order (w : World) :
  fanout_ok SEND_POOL (snd (run_main w)) = true /\
  fanout_ok WAIT_POOL (snd (run_main w)) = true.
Proof.
  cbv beta iota zeta delta [run_main main bind lift ret emit eth_chain_id
    view_call get_block_base_fee get_transaction_count estimate_gas
    pool_submit result_send result_wait app].
  repeat match goal with
         | |- context [match ?e with Some _ => _ | None => _ end] =>
             destruct e
         | |- context [match fee_config ?b with (_, _) => _ end] =>
             destruct (fee_config b)
         end;
  split; reflexivity.
Qed.

Lemma explored_blocking_check (f : Pool.state -> bool) :
  forallb f Pool.explored_blocking = true ->
  forall s, Pool.reachable Pool.MAX_WORKERS Pool.blocking_double s -> f s = true.
Proof.
  intros Hf s Hs; rewrite forallb_forall in Hf.
  apply Hf, PoolFacts.reachable_blocking_explored, Hs.
Qed.

(** With one worker the test double deadlocks: the model separates a
    serialized fan-out from a concurrent one. *)
Example one_worker_deadlocks :
  let s := Pool.mk Pool.AtResultA Pool.Running Pool.Queued in
  Pool.reachable 1 Pool.blocking_double s /\
  Pool.steps 1 Pool.blocking_double s = [].
Proof.
  split; [|reflexivity].
  apply (PoolFacts.run_path_reachable 1 Pool.blocking_double
    [Pool.mk Pool.AtSubmitB Pool.Queued Pool.NotSubmitted;
     Pool.mk Pool.AtSubmitB Pool.Running Pool.NotSubmitted;
     Pool.mk Pool.AtResultA Pool.Running Pool.Queued] Pool.init).
  - apply Pool.reach_init.
  - vm_compute; reflexivity.
  - right; right; left; reflexivity.
Qed.

(** * The claims *)

(** ** C1 (FeeTierCalculator)

    With a base fee [b] each tier gets [priorityFee = tip] and
    [maxFee = 2 b + tip], the high tier with the 10 gwei tip and the low
    tier with the 1 gwei tip; without a base fee the tiers are the legacy
    gas prices 100 gwei (high) and 20 gwei (low), whatever the chain. *)
Theorem fee_config_tiers (b : Z) :
  fee_config (Some b) =
    (FeeMarket (gwei 10) (2 * b + gwei 10), FeeMarket (gwei 1) (2 * b + gwei 1))
  /\ fee_config None = (FeeLegacy (gwei 100), FeeLegacy (gwei 20))
  /\ gwei 10 = 10000000000 /\ gwei 1 = 1000000000
  /\ gwei 100 = 100000000000 /\ gwei 20 = 20000000000.
Proof.
  repeat split; cbn [fee_config]; try reflexivity.
  do 2 f_equal; f_equal; lia.
Qed.

(** ** C2 (OrderingVerdict)

    Same block and update (A) index below swap (B) index: [SameBlockAFirst];
    same block and swap index below update index: [SameBlockBFirst];
    different blocks: [DifferentBlocks] with both block numbers, whatever
    the indices. *)
Theorem ordering_verdict_cases (rcpt_update rcpt_swap : receipt) :
  (blockNumber rcpt_update = blockNumber rcpt_swap ->
   transactionIndex rcpt_update < transactionIndex rcpt_swap ->
   ordering_verdict rcpt_update rcpt_swap = SameBlockAFirst) /\
  (blockNumber rcpt_update = blockNumber rcpt_swap ->
   transactionIndex rcpt_swap < transactionIndex rcpt_update ->
   ordering_verdict rcpt_update rcpt_swap = SameBlockBFirst) /\
  (blockNumber rcpt_update <> blockNumber rcpt_swap ->
   ordering_verdict rcpt_update rcpt_swap =
   DifferentBlocks (blockNumber rcpt_swap) (blockNumber rcpt_update)).
Proof.
  unfold ordering_verdict; repeat split; intros Hb.
  - intros Hi. rewrite Hb, Z.eqb_refl.
    destruct (Z.ltb_spec (transactionIndex rcpt_swap) (transactionIndex rcpt_update));
      [lia | reflexivity].
  - intros Hi. rewrite Hb, Z.eqb_refl.
    destruct (Z.ltb_spec (transactionIndex rcpt_swap) (transactionIndex rcpt_update));
      [reflexivity | lia].
  - destruct (Z.eqb_spec (blockNumber rcpt_swap) (blockNumber rcpt_update));
      [congruence | reflexivity].
Qed.

Lemma ordering_verdict_cases_witness :
  ordering_verdict (demo_receipt 2) (demo_receipt 5) = SameBlockAFirst /\
  ordering_verdict (demo_receipt 5) (demo_receipt 2) = SameBlockBFirst /\
  ordering_verdict (demo_receipt 2)
    {| status := 1; blockNumber := 101; blockHash := "0x101"%string;
       transactionIndex := 5; gasUsed := 0; effectiveGasPrice := 0 |}
  = DifferentBlocks 101 757.
Proof.
  split; [|split].
  - apply (proj1 (ordering_verdict_cases (demo_receipt 2) (demo_receipt 5)));
      vm_compute; reflexivity.
  - apply (proj1 (proj2
      (ordering_verdict_cases (demo_receipt 5) (demo_receipt 2))));
      vm_compute; reflexivity.
  - apply (proj2 (proj2 (ordering_verdict_cases (demo_receipt 2)
      {| status := 1; blockNumber := 101; blockHash := "0x101"%string;
         transactionIndex := 5; gasUsed := 0; effectiveGasPrice := 0 |}))).
    vm_compute; discriminate.
Defined.

(** ** C3 (equal transaction indices)

    The claim: same block and equal indices give [SameBlockBFirst].  It
    fails: such a pair falls into the [else] branch of
    [tx_idx_swap < tx_idx_update]. *)
Lemma equal_indices_not_b_first :
  ~ (forall rcpt_update rcpt_swap : receipt,
       blockNumber rcpt_update = blockNumber rcpt_swap ->
       transactionIndex rcpt_update = transactionIndex rcpt_swap ->
       ordering_verdict rcpt_update rcpt_swap = SameBlockBFirst).
Proof.
  intros H.
  specialize (H (demo_receipt 3) (demo_receipt 3) eq_refl eq_refl).
  vm_compute in H; discriminate.
Qed.

(** C3 as amended: same block and equal indices give [SameBlockAFirst]
    (the update reported as executed first); the verdict has no anomaly
    case. *)
Theorem equal_indices_a_first (rcpt_update rcpt_swap : receipt) :
  blockNumber rcpt_update = blockNumber rcpt_swap ->
  transactionIndex rcpt_update = transactionIndex rcpt_swap ->
  ordering_verdict rcpt_update rcpt_swap = SameBlockAFirst.
Proof.
  intros Hb Hi; unfold ordering_verdict.
  rewrite Hb, Hi, Z.eqb_refl, Z.ltb_irrefl; reflexivity.
Qed.

Lemma equal_indices_a_first_witness :
  ordering_verdict (demo_receipt 3) (demo_receipt 3) = SameBlockAFirst.
Proof. apply equal_indices_a_first; reflexivity. Defined.

(** ** C4 (nonce and fee pairing)

    On every run that builds its transactions, A (the [setBatch] update on
    GlobalStorage) has the lower nonce and the low fee tier, B (the
    [swapXtoY] swap on PropAMM) the higher nonce and the high fee tier. *)
Theorem nonce_fee_pairing (w : World) (r : race_result) (tr : list event) :
  run_main w = (Some r, tr) ->
  let tu := r_tx_update r in
  let ts := r_tx_swap r in
  let '(fee_high, fee_low) := fee_config (w_base_fee w) in
  (exists keys values, tx_data tu = setBatch keys values) /\
  tx_to tu = GLOBAL_STORAGE_ADDRESS /\
  (exists pid amt minout, tx_data ts = swapXtoY pid amt minout) /\
  tx_to ts = PROP_AMM_ADDRESS /\
  tx_nonce tu < tx_nonce ts /\
  tx_fee tu = fee_low /\ tx_fee ts = fee_high.
Proof.
  intros H.
  destruct (main_success w r tr H)
    as (key & sender & gs & gu & hu & hs & ru & rs & Hres); cbv zeta in Hres.
  destruct Hres as (_ & _ & _ & _ & _ & _ & _ & _ & _ & ->).
  destruct (fee_config (w_base_fee w)) as [fh fl].
  cbv beta iota delta [build_transaction r_tx_update r_tx_swap
    tx_data tx_to tx_nonce tx_fee].
  repeat split; eauto; lia.
Qed.

Lemma nonce_fee_pairing_witness :
  exists r tr, run_main demo_world = (Some r, tr) /\
  let '(fee_high, fee_low) := fee_config (w_base_fee demo_world) in
  (exists keys values, tx_data (r_tx_update r) = setBatch keys values) /\
  tx_to (r_tx_update r) = GLOBAL_STORAGE_ADDRESS /\
  (exists pid amt minout, tx_data (r_tx_swap r) = swapXtoY pid amt minout) /\
  tx_to (r_tx_swap r) = PROP_AMM_ADDRESS /\
  tx_nonce (r_tx_update r) < tx_nonce (r_tx_swap r) /\
  tx_fee (r_tx_update r) = fee_low /\ tx_fee (r_tx_swap r) = fee_high.
Proof.
  do 2 eexists.
  assert (H : run_main demo_world = (Some ?[r], ?[tr])) by (vm_compute; reflexivity).
  split; [exact H|].
  exact (nonce_fee_pairing demo_world _ _ H).
Defined.

(** ** C5 (NonceSequencer)

    A run that builds its transactions asks the chain for the sender's
    pending transaction count exactly once, and for that count [n] the
    update gets nonce [n] and the swap nonce [n + 1]. *)
Theorem nonce_pair_single_query (w : World) (r : race_result) (tr : list event) :
  run_main w = (Some r, tr) ->
  exists sender,
    filter is_count_query tr = [EvGetTransactionCount sender "pending"] /\
    tx_from (r_tx_update r) = sender /\ tx_from (r_tx_swap r) = sender /\
    let n := w_pending_count w sender in
    (tx_nonce (r_tx_update r), tx_nonce (r_tx_swap r)) = (n, n + 1).
Proof.
  intros H.
  destruct (main_success w r tr H)
    as (key & sender & gs & gu & hu & hs & ru & rs & Hres); cbv zeta in Hres.
  destruct Hres as (_ & _ & _ & _ & _ & _ & _ & _ & -> & ->).
  exists sender.
  cbv beta iota delta [build_transaction r_tx_update r_tx_swap
    tx_from tx_nonce main_trace filter is_count_query].
  repeat split.
Qed.

Lemma nonce_pair_single_query_witness :
  exists r tr, run_main demo_world = (Some r, tr) /\
  exists sender,
    filter is_count_query tr = [EvGetTransactionCount sender "pending"] /\
    tx_from (r_tx_update r) = sender /\ tx_from (r_tx_swap r) = sender /\
    let n := w_pending_count demo_world sender in
    (tx_nonce (r_tx_update r), tx_nonce (r_tx_swap r)) = (n, n + 1).
Proof.
  do 2 eexists.
  assert (H : run_main demo_world = (Some ?[r], ?[tr])) by (vm_compute; reflexivity).
  split; [exact H|].
  exact (nonce_pair_single_query demo_world _ _ H).
Defined.

(** ** C6 (gas limits)

    Building is pure: the gas limit of a built transaction is the one it
    is given.  In a run, each transaction's gas limit is that
    transaction's own estimate (same target, call and sender) plus
    20000. *)
Theorem gas_limit_margin (w : World) (r : race_result) (tr : list event) :
  (forall to c from nonce chainId gas f,
     tx_gas (build_transaction to c from nonce chainId gas f) = gas) /\
  (run_main w = (Some r, tr) ->
   forall t, t = r_tx_update r \/ t = r_tx_swap r ->
   exists est, w_estimate_gas w (tx_to t) (tx_data t) (tx_from t) = Some est /\
               tx_gas t = est + 20000 /\
               In (EvEstimateGas (tx_to t) (tx_data t) (tx_from t)) tr).
Proof.
  split; [reflexivity|].
  intros H.
  destruct (main_success w r tr H)
    as (key & sender & gs & gu & hu & hs & ru & rs & Hres); cbv zeta in Hres.
  destruct Hres as (_ & _ & Hgs & Hgu & _ & _ & _ & _ & -> & ->).
  intros t [-> | ->].
  - exists gu; split; [exact Hgu|]; split; [reflexivity|].
    cbv [main_trace In]; tauto.
  - exists gs; split; [exact Hgs|]; split; [reflexivity|].
    cbv [main_trace In]; tauto.
Qed.

Lemma gas_limit_margin_witness :
  exists r tr, run_main demo_world = (Some r, tr) /\
  tx_gas (r_tx_update r) = 100000 + 20000 /\
  (forall t, t = r_tx_update r \/ t = r_tx_swap r ->
   exists est, w_estimate_gas demo_world (tx_to t) (tx_data t) (tx_from t)
                 = Some est /\
               tx_gas t = est + 20000 /\
               In (EvEstimateGas (tx_to t) (tx_data t) (tx_from t)) tr).
Proof.
  do 2 eexists.
  assert (H : run_main demo_world = (Some ?[r], ?[tr])) by (vm_compute; reflexivity).
  split; [exact H|]; split.
  - reflexivity.
  - exact (proj2 (gas_limit_margin demo_world _ _) H).
Defined.

(** ** C7 (the end-to-end scenario)

    The claim puts the high tier's [maxFee] at 2,000,010,000 for a base
    fee of 1 gwei.  The code computes [base_fee * 2 + gwei(10)], that is
    2,000,000,000 + 10,000,000,000. *)
Lemma scenario_high_max_fee_not_2000010000 :
  max_fee (fst (fee_config (Some 1000000000))) <> Some 2000010000.
Proof. vm_compute. discriminate. Qed.

(** C7 as amended: for a base fee of 1 gwei the high tier's [maxFee] is
    12,000,000,000 wei; on the chain [demo_world] (base fee 1 gwei, 42
    pending transactions, both receipts in block 757, the swap at index 0)
    the nonces are 42 and 43 and the verdict is [SameBlockBFirst]; and any
    two receipts of block 757 with the swap (B) at index 0 and the update
    (A) at index 1 give [SameBlockBFirst]. *)
Theorem scenario_end_to_end :
  max_fee (fst (fee_config (Some 1000000000))) = Some 12000000000 /\
  option_map (fun r => (max_fee (tx_fee (r_tx_swap r)),
                        tx_nonce (r_tx_update r), tx_nonce (r_tx_swap r),
                        r_verdict r))
    (fst (run_main demo_world))
  = Some (Some 12000000000, 42, 43, SameBlockBFirst) /\
  (forall rcpt_update rcpt_swap : receipt,
     blockNumber rcpt_update = 757 -> blockNumber rcpt_swap = 757 ->
     transactionIndex rcpt_swap = 0 -> transactionIndex rcpt_update = 1 ->
     ordering_verdict rcpt_update rcpt_swap = SameBlockBFirst).
Proof.
  split; [vm_compute; reflexivity|].
  split; [vm_compute; reflexivity|].
  intros ru rs Hbu Hbs His Hiu.
  unfold ordering_verdict; rewrite Hbu, Hbs, His, Hiu; reflexivity.
Qed.

Lemma scenario_end_to_end_witness :
  ordering_verdict (demo_receipt 1) (demo_receipt 0) = SameBlockBFirst.
Proof.
  apply (proj2 (proj2 scenario_end_to_end)); reflexivity.
Defined.

(** ** C8 (concurrent fan-out)

    The claim has both calls entered before the main thread waits on
    either result.  [pool.submit] only queues the job: the main thread can
    reach [fut.result()] while both jobs still wait for their workers,
    whatever the calls do. *)
Lemma fanout_await_before_entry :
  ~ (forall (may_return : Pool.state -> bool) (s : Pool.state),
       Pool.reachable Pool.MAX_WORKERS may_return s ->
       Pool.pc_of s = Pool.AtResultA \/ Pool.pc_of s = Pool.AtResultB \/
       Pool.pc_of s = Pool.Exited ->
       Pool.entered (Pool.st_a s) = true /\ Pool.entered (Pool.st_b s) = true).
Proof.
  intros H.
  assert (Hr : Pool.reachable Pool.MAX_WORKERS (fun _ => true)
                 (Pool.mk Pool.AtResultA Pool.Queued Pool.Queued)).
  { apply (PoolFacts.run_path_reachable Pool.MAX_WORKERS (fun _ => true)
      [Pool.mk Pool.AtSubmitB Pool.Queued Pool.NotSubmitted;
       Pool.mk Pool.AtResultA Pool.Queued Pool.Queued] Pool.init).
    - apply Pool.reach_init.
    - vm_compute; reflexivity.
    - right; left; reflexivity. }
  destruct (H _ _ Hr (or_introl eq_refl)) as [Ha _].
  discriminate Ha.
Qed.

(** C8 as amended: in every run of [main], in each of the two pools (the
    raw-transaction sends and the receipt waits) both jobs are submitted
    before the main thread blocks on the first result.  In the pool model
    with the code's two workers: once the main thread is past the two
    submits both jobs are in the pool, whatever the calls do; and with the
    spec's test double (a call that blocks until both calls have been
    entered) no reachable state is stuck before the block exits, no call
    returns before both calls have been entered, and the block does
    exit. *)
Theorem fanout_concurrent :
  (forall w : World,
     fanout_ok SEND_POOL (snd (run_main w)) = true /\
     fanout_ok WAIT_POOL (snd (run_main w)) = true) /\
  (forall (may_return : Pool.state -> bool) (s : Pool.state),
     Pool.reachable Pool.MAX_WORKERS may_return s ->
     Pool.pc_of s = Pool.AtResultA \/ Pool.pc_of s = Pool.AtResultB \/
     Pool.pc_of s = Pool.Exited ->
     Pool.submitted (Pool.st_a s) = true /\ Pool.submitted (Pool.st_b s) = true) /\
  (forall s : Pool.state,
     Pool.reachable Pool.MAX_WORKERS Pool.blocking_double s ->
     Pool.pc_of s <> Pool.Exited ->
     Pool.steps Pool.MAX_WORKERS Pool.blocking_double s <> []) /\
  (forall s : Pool.state,
     Pool.reachable Pool.MAX_WORKERS Pool.blocking_double s ->
     Pool.st_a s = Pool.Done \/ Pool.st_b s = Pool.Done ->
     Pool.entered (Pool.st_a s) = true /\ Pool.entered (Pool.st_b s) = true) /\
  Pool.reachable Pool.MAX_WORKERS Pool.blocking_double
    (Pool.mk Pool.Exited Pool.Done Pool.Done).
Proof.
  split; [exact main_fanout_order|].
  split.
  { intros mr s Hs Hpc.
    pose proof (PoolFacts.submitted_inv_reachable _ _ _ Hs) as Hi.
    unfold Pool.submitted_inv in Hi.
    destruct Hpc as [Hp | [Hp | Hp]]; rewrite Hp in Hi;
      apply andb_prop in Hi; exact Hi. }
  split.
  { intros s Hs Hpc.
    pose proof (explored_blocking_check
      (fun s => Pool.pc_eqb (Pool.pc_of s) Pool.Exited ||
                negb (Nat.eqb (List.length (Pool.steps Pool.MAX_WORKERS
                                         Pool.blocking_double s)) 0))
      ltac:(vm_compute; reflexivity) s Hs) as H.
    cbv beta in H.
    destruct (Pool.pc_of s) eqn:Hp; try (exfalso; apply Hpc; reflexivity);
      cbn [Pool.pc_eqb orb] in H;
      intros He; rewrite He in H; discriminate. }
  split.
  { intros s Hs Hd.
    pose proof (explored_blocking_check
      (fun s => negb (Pool.status_eqb (Pool.st_a s) Pool.Done ||
                      Pool.status_eqb (Pool.st_b s) Pool.Done)
                || (Pool.entered (Pool.st_a s) && Pool.entered (Pool.st_b s)))
      ltac:(vm_compute; reflexivity) s Hs) as H.
    cbv beta in H.
    destruct Hd as [Hd | Hd]; rewrite Hd in H;
      destruct (Pool.st_a s), (Pool.st_b s); cbn in H |- *;
      try discriminate; split; reflexivity. }
  (* submit, submit, enter both, both return, both results *)
  apply (PoolFacts.run_path_reachable Pool.MAX_WORKERS Pool.blocking_double
    [Pool.mk Pool.AtSubmitB Pool.Queued Pool.NotSubmitted;
     Pool.mk Pool.AtResultA Pool.Queued Pool.Queued;
     Pool.mk Pool.AtResultA Pool.Running Pool.Queued;
     Pool.mk Pool.AtResultA Pool.Running Pool.Running;
     Pool.mk Pool.AtResultA Pool.Done Pool.Running;
     Pool.mk Pool.AtResultA Pool.Done Pool.Done;
     Pool.mk Pool.AtResultB Pool.Done Pool.Done;
     Pool.mk Pool.Exited Pool.Done Pool.Done] Pool.init).
  - apply Pool.reach_init.
  - vm_compute; reflexivity.
  - do 7 right; left; reflexivity.
Qed.

Lemma fanout_concurrent_witness :
  let s := Pool.mk Pool.AtResultA Pool.Done Pool.Running in
  Pool.reachable Pool.MAX_WORKERS Pool.blocking_double s /\
  (Pool.submitted (Pool.st_a s) = true /\ Pool.submitted (Pool.st_b s) = true) /\
  Pool.steps Pool.MAX_WORKERS Pool.blocking_double s <> [] /\
  (Pool.entered (Pool.st_a s) = true /\ Pool.entered (Pool.st_b s) = true).
Proof.
  cbv zeta.
  assert (Hr : Pool.reachable Pool.MAX_WORKERS Pool.blocking_double
                 (Pool.mk Pool.AtResultA Pool.Done Pool.Running)).
  { apply (PoolFacts.run_path_reachable Pool.MAX_WORKERS Pool.blocking_double
      [Pool.mk Pool.AtSubmitB Pool.Queued Pool.NotSubmitted;
       Pool.mk Pool.AtResultA Pool.Queued Pool.Queued;
       Pool.mk Pool.AtResultA Pool.Running Pool.Queued;
       Pool.mk Pool.AtResultA Pool.Running Pool.Running;
       Pool.mk Pool.AtResultA Pool.Done Pool.Running] Pool.init).
    - apply Pool.reach_init.
    - vm_compute; reflexivity.
    - do 4 right; left; reflexivity. }
  split; [exact Hr|].
  split; [apply (proj1 (proj2 fanout_concurrent) Pool.blocking_double _ Hr);
          left; reflexivity|].
  split; [apply (proj1 (proj2 (proj2 fanout_concurrent)) _ Hr); discriminate|].
  apply (proj1 (proj2 (proj2 (proj2 fanout_concurrent))) _ Hr); left; reflexivity.
Defined.

(** ** C9 (status is not read)

    Two receipt pairs that agree on block numbers and transaction indices
    get the same verdict, whatever their [status] and other fields. *)
Theorem verdict_ignores_status (ru rs ru' rs' : receipt) :
  blockNumber ru = blockNumber ru' -> transactionIndex ru = transactionIndex ru' ->
  blockNumber rs = blockNumber rs' -> transactionIndex rs = transactionIndex rs' ->
  ordering_verdict ru rs = ordering_verdict ru' rs'.
Proof.
  intros Hbu Hiu Hbs His; unfold ordering_verdict.
  rewrite Hbu, Hiu, Hbs, His; reflexivity.
Qed.

Lemma verdict_ignores_status_witness :
  ordering_verdict (demo_receipt 1) (demo_receipt 0) =
  ordering_verdict (failed_receipt (demo_receipt 1)) (demo_receipt 0).
Proof. apply verdict_ignores_status; reflexivity. Defined.

(** ** C10 (no slippage bound on the swap)

    On every run that builds its transactions the swap's call, and the one
    swap call its gas was estimated for, pass [minAmountYOut = 0]. *)
Theorem swap_min_out_zero (w : World) (r : race_result) (tr : list event) :
  run_main w = (Some r, tr) ->
  tx_data (r_tx_swap r) = swapXtoY PAIR_ID (to_wei_ether 1) 0 /\
  swap_min_outs tr = [0].
Proof.
  intros H.
  destruct (main_success w r tr H)
    as (key & sender & gs & gu & hu & hs & ru & rs & Hres); cbv zeta in Hres.
  destruct Hres as (_ & _ & _ & _ & _ & _ & _ & _ & -> & ->).
  split; reflexivity.
Qed.

Lemma swap_min_out_zero_witness :
  exists r tr, run_main demo_world = (Some r, tr) /\
  tx_data (r_tx_swap r) = swapXtoY PAIR_ID (to_wei_ether 1) 0.
Proof.
  do 2 eexists.
  assert (H : run_main demo_world = (Some ?[r], ?[tr])) by (vm_compute; reflexivity).
  split; [exact H|].
  exact (proj1 (swap_min_out_zero demo_world _ _ H)).
Defined.


(** * Further properties of the script *)



(** Without a usable [PRIVATE_KEY] ([Account.from_key] raises on an unset
    or invalid key) the run fails before it makes any request to the
    chain. *)
Theorem no_key_no_request (w : World) :
  PRIVATE_KEY w = None \/
  (exists key, PRIVATE_KEY w = Some key /\ from_key w key = None) ->
  run_main w = (None, []).
Proof.
  intros Hk; unfold_main.
  destruct Hk as [Hk | (key & Hk & Hf)]; rewrite Hk; [reflexivity|].
  rewrite Hf; reflexivity.
Qed.

Lemma no_key_no_request_witness : run_main demo_world_nokey = (None, []).
Proof. apply no_key_no_request; left; reflexivity. Defined.

(** A reverting gas estimate (of either call) fails the run before
    anything is sent: no job reaches either thread pool. *)
Theorem estimate_revert_no_submit (w : World) (key sender : string) :
  PRIVATE_KEY w = Some key -> from_key w key = Some sender ->
  w_estimate_gas w PROP_AMM_ADDRESS (swapXtoY PAIR_ID (to_wei_ether 1) 0) sender
    = None \/
  w_estimate_gas w GLOBAL_STORAGE_ADDRESS
    (setBatch (w_view w PROP_AMM_ADDRESS (getParameterKeys PAIR_ID))
       (w_view w PROP_AMM_ADDRESS
          (encodeParameters 150 (10 ^ 18) (3000 * 10 ^ 18)))) sender = None ->
  fst (run_main w) = None /\ existsb is_pool_event (snd (run_main w)) = false.
Proof.
  intros Hk Hs Hest; unfold_main; rewrite Hk, Hs.
  destruct (fee_config (w_base_fee w)).
  destruct Hest as [He | He]; rewrite He; [split; reflexivity|].
  destruct (w_estimate_gas w PROP_AMM_ADDRESS _ sender); split; reflexivity.
Qed.

Lemma estimate_revert_no_submit_witness :
  fst (run_main demo_world_revert) = None /\
  existsb is_pool_event (snd (run_main demo_world_revert)) = false.
Proof.
  apply (estimate_revert_no_submit demo_world_revert "0xkey" "0xsender");
    [reflexivity | reflexivity | right; reflexivity].
Defined.

(** A raw transaction the node rejects fails the run at its
    [fut.result()]: by then both raw transactions have been submitted, and
    no receipt wait is ever submitted, so the other transaction is left
    outstanding. *)
Theorem send_rejected_no_wait (w : World) (raw : string) :
  In (EvFutureResult SEND_POOL (SendRaw raw)) (snd (run_main w)) ->
  w_send_raw w raw = None ->
  fst (run_main w) = None /\
  existsb is_wait_submit (snd (run_main w)) = false /\
  List.length (filter is_send_submit (snd (run_main w))) = 2%nat.
Proof.
  unfold_main; case_main; intros Hin Hraw;
    try (split; [reflexivity | split; reflexivity]);
    cbv [snd In] in Hin; repeat destruct Hin as [Hin | Hin];
    try discriminate Hin; try contradiction;
    apply (f_equal (fun e => match e with
                             | EvFutureResult _ (SendRaw x) => x
                             | _ => raw
                             end)) in Hin;
    cbv beta iota in Hin; subst raw; congruence.
Qed.

Lemma send_rejected_no_wait_witness :
  fst (run_main demo_world_reject) = None /\
  existsb is_wait_submit (snd (run_main demo_world_reject)) = false /\
  List.length (filter is_send_submit (snd (run_main demo_world_reject))) = 2%nat.
Proof.
  apply (send_rejected_no_wait demo_world_reject "raw_update").
  - vm_compute. do 9 right; left; reflexivity.
  - reflexivity.
Defined.

(** Both transactions of a successful run come from the address of the
    configured key, carry the chain id the script read, and the raw
    transactions submitted to the first pool are exactly the two built
    transactions signed with that key. *)
Theorem txs_signed_by_sender (w : World) (r : race_result) (tr : list event) :
  run_main w = (Some r, tr) ->
  exists key,
    PRIVATE_KEY w = Some key /\
    from_key w key = Some (tx_from (r_tx_update r)) /\
    tx_from (r_tx_swap r) = tx_from (r_tx_update r) /\
    tx_chainId (r_tx_update r) = w_chain_id w /\
    tx_chainId (r_tx_swap r) = w_chain_id w /\
    filter is_send_submit tr =
      [EvPoolSubmit SEND_POOL
         (SendRaw (raw_transaction (sign_transaction w (r_tx_update r) key)));
       EvPoolSubmit SEND_POOL
         (SendRaw (raw_transaction (sign_transaction w (r_tx_swap r) key)))].
Proof.
  intros H.
  destruct (main_success w r tr H)
    as (key & sender & gs & gu & hu & hs & ru & rs & Hres); cbv zeta in Hres.
  destruct Hres as (Hk & Hs & _ & _ & _ & _ & _ & _ & -> & ->).
  exists key; repeat split; assumption.
Qed.

Lemma txs_signed_by_sender_witness :
  exists r tr, run_main demo_world = (Some r, tr) /\
  exists key,
    PRIVATE_KEY demo_world = Some key /\
    from_key demo_world key = Some (tx_from (r_tx_update r)) /\
    tx_from (r_tx_swap r) = tx_from (r_tx_update r) /\
    tx_chainId (r_tx_update r) = w_chain_id demo_world /\
    tx_chainId (r_tx_swap r) = w_chain_id demo_world /\
    filter is_send_submit tr =
      [EvPoolSubmit SEND_POOL
         (SendRaw (raw_transaction (sign_transaction demo_world (r_tx_update r) key)));
       EvPoolSubmit SEND_POOL
         (SendRaw (raw_transaction (sign_transaction demo_world (r_tx_swap r) key)))].
Proof.
  do 2 eexists.
  assert (H : run_main demo_world = (Some ?[r], ?[tr])) by (vm_compute; reflexivity).
  split; [exact H|].
  exact (txs_signed_by_sender demo_world _ _ H).
Defined.

(** The receipts of a successful run are not mixed up: the update's hash
    is what the node returned for the update's raw transaction, the
    update's receipt is the one waited for under that hash, the same for
    the swap, and the verdict is computed from the two receipts in that
    order. *)
Theorem receipts_follow_hashes (w : World) (r : race_result) (tr : list event) :
  run_main w = (Some r, tr) ->
  exists key,
    PRIVATE_KEY w = Some key /\
    w_send_raw w (raw_transaction (sign_transaction w (r_tx_update r) key))
      = Some (r_txhash_update r) /\
    w_send_raw w (raw_transaction (sign_transaction w (r_tx_swap r) key))
      = Some (r_txhash_swap r) /\
    w_wait_receipt w (r_txhash_update r) = Some (r_rcpt_update r) /\
    w_wait_receipt w (r_txhash_swap r) = Some (r_rcpt_swap r) /\
    r_verdict r = ordering_verdict (r_rcpt_update r) (r_rcpt_swap r).
Proof.
  intros H.
  destruct (main_success w r tr H)
    as (key & sender & gs & gu & hu & hs & ru & rs & Hres); cbv zeta in Hres.
  destruct Hres as (Hk & _ & _ & _ & Hhu & Hhs & Hru & Hrs & _ & ->).
  exists key; repeat split; assumption.
Qed.

Lemma receipts_follow_hashes_witness :
  exists r tr, run_main demo_world = (Some r, tr) /\
  exists key,
    PRIVATE_KEY demo_world = Some key /\
    w_send_raw demo_world
      (raw_transaction (sign_transaction demo_world (r_tx_update r) key))
      = Some (r_txhash_update r) /\
    w_send_raw demo_world
      (raw_transaction (sign_transaction demo_world (r_tx_swap r) key))
      = Some (r_txhash_swap r) /\
    w_wait_receipt demo_world (r_txhash_update r) = Some (r_rcpt_update r) /\
    w_wait_receipt demo_world (r_txhash_swap r) = Some (r_rcpt_swap r) /\
    r_verdict r = ordering_verdict (r_rcpt_update r) (r_rcpt_swap r).
Proof.
  do 2 eexists.
  assert (H : run_main demo_world = (Some ?[r], ?[tr])) by (vm_compute; reflexivity).
  split; [exact H|].
  exact (receipts_follow_hashes demo_world _ _ H).
Defined.

(** The update of a successful run writes exactly the keys and values the
    PropAMM helpers returned for the pair the swap trades, and the script
    asked for those keys with that pair. *)
Theorem update_targets_swapped_pair (w : World) (r : race_result) (tr : list event) :
  run_main w = (Some r, tr) ->
  exists pid amt,
    tx_data (r_tx_swap r) = swapXtoY pid amt 0 /\
    tx_data (r_tx_update r) =
      setBatch (w_view w PROP_AMM_ADDRESS (getParameterKeys pid))
               (w_view w PROP_AMM_ADDRESS
                  (encodeParameters 150 (10 ^ 18) (3000 * 10 ^ 18))) /\
    In (EvView PROP_AMM_ADDRESS (getParameterKeys pid)) tr.
Proof.
  intros H.
  destruct (main_success w r tr H)
    as (key & sender & gs & gu & hu & hs & ru & rs & Hres); cbv zeta in Hres.
  destruct Hres as (_ & _ & _ & _ & _ & _ & _ & _ & -> & ->).
  exists PAIR_ID, (to_wei_ether 1); split; [reflexivity|]; split; [reflexivity|].
  right; left; reflexivity.
Qed.

Lemma update_targets_swapped_pair_witness :
  exists r tr, run_main demo_world = (Some r, tr) /\
  exists pid amt,
    tx_data (r_tx_swap r) = swapXtoY pid amt 0 /\
    tx_data (r_tx_update r) =
      setBatch (w_view demo_world PROP_AMM_ADDRESS (getParameterKeys pid))
               (w_view demo_world PROP_AMM_ADDRESS
                  (encodeParameters 150 (10 ^ 18) (3000 * 10 ^ 18))) /\
    In (EvView PROP_AMM_ADDRESS (getParameterKeys pid)) tr.
Proof.
  do 2 eexists.
  assert (H : run_main demo_world = (Some ?[r], ?[tr])) by (vm_compute; reflexivity).
  split; [exact H|].
  exact (update_targets_swapped_pair demo_world _ _ H).
Defined.

(** In a successful run both transactions use the same fee mode, chosen by
    whether the latest block has a base fee, and the swap outbids the
    update in every fee field: a higher tip and a higher fee cap on a
    fee-market chain, a higher gas price on a legacy chain. *)
Theorem swap_fee_dominates (w : World) (r : race_result) (tr : list event) :
  run_main w = (Some r, tr) ->
  match tx_fee (r_tx_swap r), tx_fee (r_tx_update r) with
  | FeeMarket ph mh, FeeMarket pl ml => w_base_fee w <> None /\ pl < ph /\ ml < mh
  | FeeLegacy gh, FeeLegacy gl => w_base_fee w = None /\ gl < gh
  | _, _ => False
  end.
Proof.
  intros H.
  destruct (main_success w r tr H)
    as (key & sender & gs & gu & hu & hs & ru & rs & Hres); cbv zeta in Hres.
  destruct Hres as (_ & _ & _ & _ & _ & _ & _ & _ & _ & ->).
  cbv beta iota delta [r_tx_swap r_tx_update build_transaction tx_fee].
  destruct (w_base_fee w) as [b|]; cbv [fee_config fst snd gwei].
  - split; [discriminate|]; lia.
  - split; [reflexivity|]; lia.
Qed.

Lemma swap_fee_dominates_witness :
  exists r tr, run_main demo_world = (Some r, tr) /\
  match tx_fee (r_tx_swap r), tx_fee (r_tx_update r) with
  | FeeMarket ph mh, FeeMarket pl ml => w_base_fee demo_world <> None /\ pl < ph /\ ml < mh
  | FeeLegacy gh, FeeLegacy gl => w_base_fee demo_world = None /\ gl < gh
  | _, _ => False
  end.
Proof.
  do 2 eexists.
  assert (H : run_main demo_world = (Some ?[r], ?[tr])) by (vm_compute; reflexivity).
  split; [exact H|].
  exact (swap_fee_dominates demo_world _ _ H).
Defined.

(** With a non-negative base fee, each transaction of a successful run on
    a fee-market chain has a fee cap at least its tip. *)
Theorem fee_cap_covers_tip (w : World) (r : race_result) (tr : list event) :
  run_main w = (Some r, tr) ->
  (forall b, w_base_fee w = Some b -> 0 <= b) ->
  forall t, t = r_tx_update r \/ t = r_tx_swap r ->
  match tx_fee t with FeeMarket p m => p <= m | FeeLegacy _ => True end.
Proof.
  intros H Hb t Ht.
  destruct (main_success w r tr H)
    as (key & sender & gs & gu & hu & hs & ru & rs & Hres); cbv zeta in Hres.
  destruct Hres as (_ & _ & _ & _ & _ & _ & _ & _ & _ & ->).
  destruct Ht as [-> | ->];
    cbv beta iota delta [r_tx_swap r_tx_update build_transaction tx_fee];
    destruct (w_base_fee w) as [b|] eqn:E; cbv [fee_config fst snd gwei]; try exact I;
    specialize (Hb b eq_refl); lia.
Qed.

Lemma fee_cap_covers_tip_witness :
  exists r tr, run_main demo_world = (Some r, tr) /\
  match tx_fee (r_tx_swap r) with FeeMarket p m => p <= m | FeeLegacy _ => True end.
Proof.
  do 2 eexists.
  assert (H : run_main demo_world = (Some ?[r], ?[tr])) by (vm_compute; reflexivity).
  split; [exact H|].
  apply (fee_cap_covers_tip demo_world _ _ H).
  - intros b Hb; injection Hb as <-; lia.
  - right; reflexivity.
Defined.

(** The verdict says "same block" exactly when the two block numbers are
    equal; a [DifferentBlocks] verdict reports the swap's block, then the
    update's, and they differ. *)
Theorem verdict_same_block_iff (rcpt_update rcpt_swap : receipt) :
  (ordering_verdict rcpt_update rcpt_swap = SameBlockAFirst \/
   ordering_verdict rcpt_update rcpt_swap = SameBlockBFirst <->
   blockNumber rcpt_update = blockNumber rcpt_swap) /\
  (forall a b, ordering_verdict rcpt_update rcpt_swap = DifferentBlocks a b ->
   a = blockNumber rcpt_swap /\ b = blockNumber rcpt_update /\ a <> b).
Proof.
  unfold ordering_verdict.
  destruct (Z.eqb_spec (blockNumber rcpt_swap) (blockNumber rcpt_update)) as [He | Hn].
  - split.
    + split; [intros _; symmetry; exact He|].
      intros _; destruct (_ <? _); [right | left]; reflexivity.
    + intros a b Hd; destruct (_ <? _); discriminate Hd.
  - split.
    + split; [intros [Hv | Hv]; discriminate Hv|].
      intros He; exfalso; apply Hn; symmetry; exact He.
    + intros a b Hd; injection Hd as <- <-; repeat split; exact Hn.
Qed.

Lemma verdict_same_block_iff_witness :
  101 <> 757.
Proof.
  apply (proj2 (verdict_same_block_iff (demo_receipt 2)
    {| status := 1; blockNumber := 101; blockHash := "0x101"%string;
       transactionIndex := 5; gasUsed := 0; effectiveGasPrice := 0 |})
    101 757).
  vm_compute; reflexivity.
Defined.
